(** * PlayerInspector story: mocked routes and dependent loads

    A shallow embedding of
    [frontend/src/scenes/session-recordings/player/inspector/PlayerInspector.stories.tsx]:
    the two request handlers registered through [mswDecorator] and the
    [BasicTemplate] component that dispatches [loadSnapshots] and
    [loadEvents]. *)

From Stdlib Require Import List String ZArith QArith Bool Arith Lia.
Import ListNotations.
Local Close Scope Q_scope.
Local Open Scope string_scope.
Set Warnings "-register-all".

(** ** JavaScript values as the handlers see them *)

Module JS.

(** A request body is whatever the interceptor parsed: nothing
    ([undefined]), a string, or a JSON document.  A string is the sequence
    of its code units, one [ascii] each; a number is its numeric value. *)
Inductive value : Type :=
| undefined
| null
| boolean (b : bool)
| number (n : Q)
| str (s : string)
| array (elems : list value)
| object (members : list (string * value)).

Inductive exception : Type :=
| TypeError.

(** Evaluation of an expression either yields a value or throws. *)
Inductive completion (A : Type) : Type :=
| Normal (a : A)
| Throw (e : exception).
Arguments Normal {A} a.
Arguments Throw {A} e.

Definition bind {A B : Type} (c : completion A) (k : A -> completion B)
  : completion B :=
  match c with
  | Normal a => k a
  | Throw e => Throw e
  end.

Notation "x <- c ;; k" := (bind c (fun x => k))
  (at level 61, c at next level, right associativity).

(** Own property of an object literal or parsed object. *)
Fixpoint own_property (members : list (string * value)) (key : string) : value :=
  match members with
  | [] => undefined
  | (k, v) :: rest => if String.eqb k key then v else own_property rest key
  end.

Definition of_nat (n : nat) : value := number (inject_Z (Z.of_nat n)).

(** [v.key] for a property name that is neither an index nor inherited
    from a prototype, which holds of every name the story reads ([query],
    [kind], [properties], [length]).  Reading a property of [undefined] or
    [null] throws a [TypeError]; arrays and strings own [length];
    primitives have no other property. *)
Definition get (v : value) (key : string) : completion value :=
  match v with
  | undefined | null => Throw TypeError
  | boolean _ | number _ => Normal undefined
  | str s => Normal (if String.eqb key "length" then of_nat (String.length s) else undefined)
  | array elems => Normal (if String.eqb key "length" then of_nat (List.length elems) else undefined)
  | object members => Normal (own_property members key)
  end.

(** [v === 'literal'] *)
Definition strict_eq_string (v : value) (lit : string) : bool :=
  match v with
  | str s => String.eqb s lit
  | _ => false
  end.

(** [v === 'literal'] where [v] is a string or [null]. *)
Definition nullable_eq_string (v : option string) (lit : string) : bool :=
  match v with
  | Some s => String.eqb s lit
  | None => false
  end.

(** [v === literal] for a numeric literal. *)
Definition strict_eq_number (v : value) (lit : Q) : bool :=
  match v with
  | number n => Qeq_bool n lit
  | _ => false
  end.

End JS.

Import JS.

(** ** The interception surface (msw) *)

Module Msw.

(** [URLSearchParams]: the query string as an ordered list of name/value
    pairs; [get] yields the first value of that name, or [null] ([None]). *)
Definition URLSearchParams := list (string * string).

Fixpoint searchParams_get (ps : URLSearchParams) (name : string) : option string :=
  match ps with
  | [] => None
  | (n, v) :: rest => if String.eqb n name then Some v else searchParams_get rest name
  end.

Record URL := { pathname : string; searchParams : URLSearchParams }.

Record RestRequest := {
  url : URL;
  params : list (string * string);
  body : value
}.

(** [req.url.searchParams.get('source')] *)
Definition sourceOf (req : RestRequest) : option string :=
  searchParams_get (searchParams (url req)) "source".

Inductive ResponseBody : Type :=
| NoBody
| Text (s : string)
| Json (v : value).

Record MockedResponse := {
  status : Z;
  contentType : option string;
  responseBody : ResponseBody
}.

Definition ResponseTransformer := MockedResponse -> MockedResponse.

Definition defaultResponse : MockedResponse :=
  {| status := 200; contentType := None; responseBody := NoBody |}.

(** [ctx.text(s)]: the body is the text as given. *)
Definition ctx_text (s : string) : ResponseTransformer :=
  fun r => {| status := status r;
              contentType := Some "text/plain";
              responseBody := Text s |}.

(** [ctx.json(v)]: the body is the serialisation of [v]. *)
Definition ctx_json (v : value) : ResponseTransformer :=
  fun r => {| status := status r;
              contentType := Some "application/json";
              responseBody := Json v |}.

(** [res(t1, ..., tn)] applies the transformers to the default response. *)
Definition res (ts : list ResponseTransformer) : MockedResponse :=
  fold_left (fun r t => t r) ts defaultResponse.

(** A handler returns either a response built with [res], or a
    [[status, payload]] pair left to the decorator. *)
Inductive HandlerResult : Type :=
| Responded (r : MockedResponse)
| StatusPayload (code : Z) (payload : value).

Inductive Mock : Type :=
| Fixed (payload : value)
| Handler (f : RestRequest -> completion HandlerResult).

Record Mocks := {
  get_mocks : list (string * Mock);
  post_mocks : list (string * Mock)
}.

End Msw.

Import Msw.

(** ** The story's handlers *)

Module Story.

Section Fixtures.

(** The fixture modules under [scenes/session-recordings/__mocks__]. *)
Variable recordingEventsJson : value.
Variable recordingMetaJson : value.
Variable snapshotsAsJSONLines : unit -> string.

Definition sourcesPayload : value :=
  object [("sources",
           array [object [("source", str "blob");
                          ("start_timestamp", str "2023-08-11T12:03:36.097000Z");
                          ("end_timestamp", str "2023-08-11T12:04:52.268000Z");
                          ("blob_key", str "1691755416097-1691755492268")]])].

Definition emptyResults : value := object [("results", array [])].

(** [get '/api/environments/:team_id/session_recordings/:id/snapshots'] *)
Definition snapshotsHandler (req : RestRequest) : completion HandlerResult :=
  if nullable_eq_string (sourceOf req) "blob" then
    Normal (Responded (res [ctx_text (snapshotsAsJSONLines tt)]))
  else
    Normal (StatusPayload 200 sourcesPayload).

(** [post '/api/environments/:team_id/query'] *)
Definition queryHandler (req : RestRequest) : completion HandlerResult :=
  let body := body req in
  query <- get body "query" ;;
  kind <- get query "kind" ;;
  if strict_eq_string kind "EventsQuery" then
    query' <- get body "query" ;;
    properties <- get query' "properties" ;;
    len <- get properties "length" ;;
    if strict_eq_number len 1 then
      Normal (Responded (res [ctx_json recordingEventsJson]))
    else
      Normal (Responded (res [ctx_json emptyResults]))
  else
    Normal (Responded (res [ctx_json emptyResults])).

Definition mocks : Mocks :=
  {| get_mocks :=
       [("/api/environments/:team_id/session_recordings/:id", Fixed recordingMetaJson);
        ("/api/environments/:team_id/session_recordings/:id/snapshots", Handler snapshotsHandler)];
     post_mocks :=
       [("/api/environments/:team_id/query", Handler queryHandler)] |}.

End Fixtures.

End Story.

(** ** The response resolver as the specification words it

    An ordered list of (predicate, payload) branches with a default: the
    first branch whose predicate holds of the request body is selected. *)

Module Resolver.

Definition Branch : Type := (value -> bool) * value.

Fixpoint resolveBranches (branches : list Branch) (default : value) (body : value) : value :=
  match branches with
  | [] => default
  | (holds, payload) :: rest =>
      if holds body then payload else resolveBranches rest default body
  end.

(** Number of branches whose turn came and whose predicate held: the
    selected one, if any. *)
Fixpoint selected (branches : list Branch) (body : value) : option nat :=
  match branches with
  | [] => None
  | (holds, _) :: rest =>
      if holds body then Some 0%nat else option_map S (selected rest body)
  end.

(** A member read that yields [undefined] where [JS.get] would throw. *)
Definition member (v : value) (key : string) : value :=
  match get v key with
  | Normal x => x
  | Throw _ => undefined
  end.

Definition nullish (v : value) : bool :=
  match v with
  | undefined | null => true
  | _ => false
  end.

Definition isEventsQuery (body : value) : bool :=
  strict_eq_string (member (member body "query") "kind") "EventsQuery".

(** "a query-kind discriminator plus exactly one filter clause" *)
Definition isEventsQueryWithOneProperty (body : value) : bool :=
  isEventsQuery body
  && strict_eq_number (member (member (member body "query") "properties") "length") 1.

Definition queryBranches (recordingEventsJson : value) : list Branch :=
  [(isEventsQueryWithOneProperty, recordingEventsJson)].

(** The bodies on which every member the handler dereferences exists:
    [body] and [body.query] are not nullish, and neither is
    [body.query.properties] when the kind is ['EventsQuery']. *)
Definition dereferenceable (body : value) : bool :=
  negb (nullish body)
  && negb (nullish (member body "query"))
  && (negb (isEventsQuery body)
      || negb (nullish (member (member body "query") "properties"))).

End Resolver.

(** ** The component and its hooks *)

Module React.

(** What [useValues] hands to the component for a loader value: [null], or
    a reference to the object the store holds. *)
Inductive StoreValue : Type :=
| nullValue
| ref (addr : nat).

Definition Object_is (a b : StoreValue) : bool :=
  match a, b with
  | nullValue, nullValue => true
  | ref x, ref y => Nat.eqb x y
  | _, _ => false
  end.

(** The dependency comparison of [useEffect]: no previous dependencies
    (first render) counts as changed; otherwise the arrays are compared
    slot by slot with [Object.is]. *)
Fixpoint sameInputs (next prev : list StoreValue) : bool :=
  match next, prev with
  | n :: next', p :: prev' => Object_is n p && sameInputs next' prev'
  | _, _ => true
  end.

Definition areHookInputsEqual (next : list StoreValue) (prev : option (list StoreValue)) : bool :=
  match prev with
  | None => false
  | Some prevDeps => sameInputs next prevDeps
  end.

(** The memoised state of the component's single effect. *)
Record Hooks := { effectDeps : option (list StoreValue) }.

Definition unmounted : Hooks := {| effectDeps := None |}.

End React.

Import React.

Module Template.

Inductive Action : Type :=
| loadSnapshots
| loadEvents.

Definition Action_eqb (a b : Action) : bool :=
  match a, b with
  | loadSnapshots, loadSnapshots => true
  | loadEvents, loadEvents => true
  | _, _ => false
  end.

(** One render of [BasicTemplate] followed by the commit of its effect:
    the actions dispatched, in order, and the hook state left behind.
    [sessionPlayerMetaData] is the value read through [useValues]. *)
Definition BasicTemplate (sessionPlayerMetaData : StoreValue) (h : Hooks)
  : Hooks * list Action :=
  let duringRender := [loadSnapshots] in
  let deps := [sessionPlayerMetaData] in
  let effect :=
    if areHookInputsEqual deps (effectDeps h) then [] else [loadEvents] in
  ({| effectDeps := Some deps |}, (duringRender ++ effect)%list).

End Template.

Import Template.

(** ** Load states of the data logic *)

Module Loads.

(** Modelled from the spec: the store behind [sessionRecordingDataLogic]
    is not part of the story file; a LoadState has the lifecycle
    unloaded -> loading -> loaded(value) | failed(error).  A loaded value is
    identified by the reference the store holds. *)
Inductive LoadState : Type :=
| unloaded
| loading
| loaded (v : nat)
| failed (err : string).

Definition isLoaded (s : LoadState) : bool :=
  match s with
  | loaded _ => true
  | _ => false
  end.

(** Modelled from the spec: what reading a LoadState's current value
    yields; the value is absent until the state is loaded, and present
    from then on. *)
Definition valueOf (s : LoadState) : StoreValue :=
  match s with
  | loaded v => ref v
  | _ => nullValue
  end.

Inductive Kind : Type :=
| metadata
| snapshots
| events.

Definition Kind_eqb (a b : Kind) : bool :=
  match a, b with
  | metadata, metadata => true
  | snapshots, snapshots => true
  | events, events => true
  | _, _ => false
  end.

(** The LoadState of every kind and the interception calls recorded so
    far, oldest first. *)
Record Store := {
  stateOf : Kind -> LoadState;
  interceptions : list Kind
}.

Definition emptyStore : Store :=
  {| stateOf := fun _ => unloaded; interceptions := [] |}.

Definition setState (k : Kind) (s : LoadState) (st : Store) : Kind -> LoadState :=
  fun k' => if Kind_eqb k' k then s else stateOf st k'.

(** Modelled from the spec: [startLoad(kind)] of the data-loading facade,
    which is not part of the story file.  The transition
    unloaded -> loading is triggered by the call and issues the simulated
    request; a call while already loading is a no-op; the lifecycle has no
    transition out of loaded or failed. *)
Definition startLoad (k : Kind) (st : Store) : Store :=
  match stateOf st k with
  | unloaded =>
      {| stateOf := setState k loading st;
         interceptions := (interceptions st ++ [k])%list |}
  | _ => st
  end.

Inductive Outcome : Type :=
| ok (v : nat)
| error (msg : string).

(** Modelled from the spec: the resolution of the simulated request of a
    load in flight, loading -> loaded when the response resolves,
    loading -> failed on an error. *)
Definition resolve (k : Kind) (o : Outcome) (st : Store) : Store :=
  match stateOf st k with
  | loading =>
      {| stateOf := setState k (match o with ok v => loaded v | error m => failed m end) st;
         interceptions := interceptions st |}
  | _ => st
  end.

Inductive StoreEvent : Type :=
| StartLoad (k : Kind)
| Resolve (k : Kind) (o : Outcome).

Definition apply (st : Store) (e : StoreEvent) : Store :=
  match e with
  | StartLoad k => startLoad k st
  | Resolve k o => resolve k o st
  end.

Definition runStore (es : list StoreEvent) : Store := fold_left apply es emptyStore.

(** Interception calls recorded for one kind. *)
Fixpoint callsFor (k : Kind) (calls : list Kind) : nat :=
  match calls with
  | [] => 0
  | c :: rest => (if Kind_eqb c k then 1 else 0) + callsFor k rest
  end.

(** One interception call per lifecycle begun: a kind has no recorded
    call while unloaded and exactly one from then on. *)
Definition oneCallPerLifecycle (st : Store) : Prop :=
  forall k : Kind,
    callsFor k (interceptions st) =
    match stateOf st k with
    | unloaded => 0
    | _ => 1
    end.

(** Lifecycles of a kind that ran to completion. *)
Definition completed (k : Kind) (st : Store) : nat :=
  match stateOf st k with
  | loaded _ | failed _ => 1
  | _ => 0
  end.

(** The load that an action of the data logic starts. *)
Definition kindOf (a : Action) : Kind :=
  match a with
  | loadSnapshots => snapshots
  | loadEvents => events
  end.

Definition dispatch (st : Store) (a : Action) : Store := startLoad (kindOf a) st.

End Loads.

Import Loads.

(** ** Executions of the story *)

Module Harness.

(** The environment either moves the metadata LoadState, or has React
    render the component. *)
Inductive Step : Type :=
| MetaBecomes (s : LoadState)
| Render.

Inductive Event : Type :=
| Reached (s : LoadState)
| Issued (a : Action).

Record State := {
  metaState : LoadState;
  hooks : Hooks
}.

Definition start : State := {| metaState := unloaded; hooks := unmounted |}.

Definition step (st : State) (s : Step) : State * list Event :=
  match s with
  | MetaBecomes s' => ({| metaState := s'; hooks := hooks st |}, [Reached s'])
  | Render =>
      let '(h, actions) := BasicTemplate (valueOf (metaState st)) (hooks st) in
      ({| metaState := metaState st; hooks := h |}, map Issued actions)
  end.

(** The trace of an execution. *)
Fixpoint run (st : State) (steps : list Step) : list Event :=
  match steps with
  | [] => []
  | s :: rest => let '(st', out) := step st s in (out ++ run st' rest)%list
  end.

Fixpoint finalState (st : State) (steps : list Step) : State :=
  match steps with
  | [] => st
  | s :: rest => finalState (fst (step st s)) rest
  end.

(** Every [loadEvents] of the trace comes after the metadata reached
    loaded ([seen] tells whether it already had). *)
Fixpoint issuedOnlyOnceLoaded (seen : bool) (t : list Event) : bool :=
  match t with
  | [] => true
  | Reached s :: rest => issuedOnlyOnceLoaded (seen || isLoaded s) rest
  | Issued loadEvents :: rest => seen && issuedOnlyOnceLoaded seen rest
  | Issued loadSnapshots :: rest => issuedOnlyOnceLoaded seen rest
  end.

Fixpoint countIssued (a : Action) (t : list Event) : nat :=
  match t with
  | [] => 0
  | Issued b :: rest => (if Action_eqb b a then 1 else 0) + countIssued a rest
  | Reached _ :: rest => countIssued a rest
  end.

Definition neverLoaded (steps : list Step) : bool :=
  forallb (fun s => match s with MetaBecomes s' => negb (isLoaded s') | Render => true end) steps.

End Harness.

Import Harness.

(** ** Successive renders of the component *)

Module Renders.

(** The actions dispatched when React renders the component once for each
    of the metadata values, in order, starting from hook state [h]. *)
Fixpoint renders (h : Hooks) (values : list StoreValue) : list Action :=
  match values with
  | [] => []
  | m :: rest =>
      let '(h', actions) := BasicTemplate m h in
      (actions ++ renders h' rest)%list
  end.

Fixpoint dispatched (a : Action) (actions : list Action) : nat :=
  match actions with
  | [] => 0
  | b :: rest => (if Action_eqb b a then 1 else 0) + dispatched a rest
  end.

(** Number of values that are not the same, for [Object.is], as the value
    just before them; [prev] comes before the first. *)
Fixpoint changes (prev : StoreValue) (values : list StoreValue) : nat :=
  match values with
  | [] => 0
  | m :: rest => (if Object_is m prev then 0 else 1) + changes m rest
  end.

(** Every [loadEvents] comes directly after a [loadSnapshots]; [prev] is
    the action before the list, if any. *)
Fixpoint eventsFollowSnapshots (prev : option Action) (actions : list Action) : bool :=
  match actions with
  | [] => true
  | loadSnapshots :: rest => eventsFollowSnapshots (Some loadSnapshots) rest
  | loadEvents :: rest =>
      match prev with
      | Some loadSnapshots => eventsFollowSnapshots (Some loadEvents) rest
      | _ => false
      end
  end.

End Renders.

Import Renders.

(** ** Reading a sources list *)

Module Sources.

(** The [source] of one entry of a sources list, when it is a string. *)
Definition sourceName (entry : value) : option string :=
  match Resolver.member entry "source" with
  | str s => Some s
  | _ => None
  end.

(** The source names a payload lists under [sources], in order. *)
Definition advertisedSources (payload : value) : list string :=
  match Resolver.member payload "sources" with
  | array entries =>
      flat_map (fun entry => match sourceName entry with
                             | Some s => [s]
                             | None => []
                             end) entries
  | _ => []
  end.

End Sources.

(** ** Sample requests and fixtures *)

Module Samples.

Definition getSnapshots (query : URLSearchParams) : RestRequest :=
  {| url := {| pathname := "/api/environments/1/session_recordings/12345/snapshots";
               searchParams := query |};
     params := [("team_id", "1"); ("id", "12345")];
     body := undefined |}.

Definition postQuery (payload : value) : RestRequest :=
  {| url := {| pathname := "/api/environments/1/query"; searchParams := [] |};
     params := [("team_id", "1")];
     body := payload |}.

Definition eventsQuery (properties : list value) : value :=
  object [("query", object [("kind", str "EventsQuery");
                            ("properties", array properties)])].

Definition sessionFilter : value :=
  object [("key", str "$session_id"); ("value", array [str "12345"]);
          ("operator", str "exact"); ("type", str "event")].

Definition eventsFixture : value :=
  object [("columns", array [str "uuid"; str "event"]);
          ("results", array [array [str "0189e2a1"; str "$pageview"]])].

Definition snapshotLines (_ : unit) : string := "snapshot line 1 / snapshot line 2".

End Samples.

(** * Properties *)

(** ** Member reads *)

Lemma get_of_present (v : value) (key : string) :
  Resolver.nullish v = false -> get v key = Normal (Resolver.member v key).
Proof.
  unfold Resolver.member.
  destruct v; simpl; intro H; try discriminate H; reflexivity.
Qed.

Lemma get_of_nullish (v : value) (key : string) :
  Resolver.nullish v = true -> get v key = Throw TypeError.
Proof.
  destruct v; simpl; intro H; try discriminate H; reflexivity.
Qed.

Lemma length_is_one (n : nat) : strict_eq_number (of_nat n) 1 = Nat.eqb n 1.
Proof.
  destruct n as [| [| n]]; try reflexivity.
  unfold strict_eq_number, of_nat.
  apply not_true_is_false. intro H.
  apply Qeq_bool_eq in H. unfold Qeq, inject_Z in H. cbn [Qnum Qden] in H. lia.
Qed.

(** ** The snapshots route *)

Section SnapshotsRoute.

Variable snapshotsAsJSONLines : unit -> string.

Lemma snapshots_by_source (req : RestRequest) :
  Story.snapshotsHandler snapshotsAsJSONLines req =
  if nullable_eq_string (sourceOf req) "blob"
  then Normal (Responded {| status := 200;
                            contentType := Some "text/plain";
                            responseBody := Text (snapshotsAsJSONLines tt) |})
  else Normal (StatusPayload 200 Story.sourcesPayload).
Proof.
  unfold Story.snapshotsHandler, sourceOf.
  destruct (nullable_eq_string _ _); reflexivity.
Qed.

Lemma not_blob (v : string) : v <> "blob" -> nullable_eq_string (Some v) "blob" = false.
Proof.
  intro H. simpl. apply String.eqb_neq. exact H.
Qed.

(** C7: a GET on the snapshots route without a [source] query parameter is
    answered with status 200 and the one-element sources list naming the
    blob source, its two timestamps and its blob key. *)
Theorem snapshots_without_source (req : RestRequest) :
  sourceOf req = None ->
  Story.snapshotsHandler snapshotsAsJSONLines req =
  Normal (StatusPayload 200
    (object [("sources",
              array [object [("source", str "blob");
                             ("start_timestamp", str "2023-08-11T12:03:36.097000Z");
                             ("end_timestamp", str "2023-08-11T12:04:52.268000Z");
                             ("blob_key", str "1691755416097-1691755492268")]])])).
Proof.
  intro H. rewrite snapshots_by_source, H. reflexivity.
Qed.

(** C8: a GET on the snapshots route whose [source] query parameter is
    [blob] is answered with the snapshot fixture as literal text, status
    200 and a text content type. *)
Theorem snapshots_blob_source (req : RestRequest) :
  sourceOf req = Some "blob" ->
  Story.snapshotsHandler snapshotsAsJSONLines req =
  Normal (Responded {| status := 200;
                       contentType := Some "text/plain";
                       responseBody := Text (snapshotsAsJSONLines tt) |}).
Proof.
  intro H. rewrite snapshots_by_source, H. reflexivity.
Qed.

(** C10: a GET on the snapshots route whose [source] query parameter is
    present with a value other than exactly [blob] gets the same
    sources-list answer as a request without [source]. *)
Theorem snapshots_other_source (req absent : RestRequest) (v : string) :
  sourceOf req = Some v ->
  v <> "blob" ->
  sourceOf absent = None ->
  Story.snapshotsHandler snapshotsAsJSONLines req =
    Story.snapshotsHandler snapshotsAsJSONLines absent
  /\ Story.snapshotsHandler snapshotsAsJSONLines req =
       Normal (StatusPayload 200 Story.sourcesPayload).
Proof.
  intros Hv Hne Habs.
  rewrite !snapshots_by_source, Hv, Habs, (not_blob v Hne). split; reflexivity.
Qed.

(** The blob branch is taken exactly when the first [source] value is
    the string [blob]. *)
Lemma snapshots_text_iff (req : RestRequest) :
  (exists r, Story.snapshotsHandler snapshotsAsJSONLines req = Normal (Responded r))
  <-> sourceOf req = Some "blob".
Proof.
  rewrite snapshots_by_source. split.
  - intros [r Hr]. destruct (sourceOf req) as [v|]; unfold nullable_eq_string in Hr.
    + destruct (String.eqb_spec v "blob") as [Heq|Hne]; [now rewrite Heq | discriminate Hr].
    + discriminate Hr.
  - intros ->. eexists. reflexivity.
Qed.

End SnapshotsRoute.

(** ** Branch selection *)

Lemma resolveBranches_selected (branches : list Resolver.Branch) (default body : value) :
  Resolver.resolveBranches branches default body =
  match Resolver.selected branches body with
  | Some i =>
      match nth_error branches i with
      | Some (_, payload) => payload
      | None => default
      end
  | None => default
  end.
Proof.
  induction branches as [| [holds payload] rest IH]; [reflexivity |].
  cbn [Resolver.resolveBranches Resolver.selected].
  destruct (holds body); [reflexivity |].
  rewrite IH. destruct (Resolver.selected rest body); reflexivity.
Qed.

(** The selected branch is the first, in registration order, whose
    predicate holds of the body. *)
Lemma selected_is_first (branches : list Resolver.Branch) (body : value) :
  forall i : nat,
    Resolver.selected branches body = Some i ->
    (exists holds payload, nth_error branches i = Some (holds, payload) /\ holds body = true)
    /\ (forall j holds payload,
          j < i -> nth_error branches j = Some (holds, payload) -> holds body = false).
Proof.
  induction branches as [| [holds payload] rest IH]; intros i Hsel; [discriminate Hsel |].
  cbn [Resolver.selected] in Hsel. destruct (holds body) eqn:Hholds.
  - injection Hsel as <-. split.
    + exists holds, payload. split; [reflexivity | exact Hholds].
    + intros j h p Hlt. lia.
  - destruct (Resolver.selected rest body) as [i' |] eqn:Hrest; [| discriminate Hsel].
    injection Hsel as <-. destruct (IH i' eq_refl) as [Hhit Hmiss]. split.
    + exact Hhit.
    + intros [| j] h p Hlt Hnth.
      * injection Hnth as <- _. exact Hholds.
      * apply (Hmiss j h p); [lia | exact Hnth].
Qed.

Lemma selected_none (branches : list Resolver.Branch) (body : value) :
  Resolver.selected branches body = None ->
  forall holds payload, In (holds, payload) branches -> holds body = false.
Proof.
  induction branches as [| [h p] rest IH]; intros Hsel holds payload Hin; [destruct Hin |].
  cbn [Resolver.selected] in Hsel. destruct (h body) eqn:Hh; [discriminate Hsel |].
  destruct (Resolver.selected rest body) eqn:Hrest; [discriminate Hsel |].
  destruct Hin as [Heq | Hin].
  - injection Heq as <- _. exact Hh.
  - apply (IH eq_refl holds payload Hin).
Qed.

(** ** The query route *)

Section QueryRoute.

Variable recordingEventsJson : value.

(** The handler on a body all of whose dereferenced members exist. *)
Lemma query_on_dereferenceable (req : RestRequest) :
  Resolver.dereferenceable (body req) = true ->
  Story.queryHandler recordingEventsJson req =
  Normal (Responded (res [ctx_json
    (if Resolver.isEventsQueryWithOneProperty (body req)
     then recordingEventsJson else Story.emptyResults)])).
Proof.
  unfold Resolver.dereferenceable, Story.queryHandler,
    Resolver.isEventsQueryWithOneProperty, Resolver.isEventsQuery.
  cbv zeta. intro H.
  apply andb_true_iff in H as [H Hprops].
  apply andb_true_iff in H as [Hbody Hquery].
  apply negb_true_iff in Hbody, Hquery.
  rewrite (get_of_present _ "query" Hbody). cbn [bind].
  rewrite (get_of_present _ "kind" Hquery). cbn [bind].
  destruct (strict_eq_string _ "EventsQuery"); [| reflexivity].
  cbn [negb orb] in Hprops. apply negb_true_iff in Hprops. cbn [bind].
  rewrite (get_of_present _ "properties" Hquery). cbn [bind].
  rewrite (get_of_present _ "length" Hprops). cbn [bind andb].
  destruct (strict_eq_number _ 1); reflexivity.
Qed.

(** The handler on every other body. *)
Lemma query_on_missing_member (req : RestRequest) :
  Resolver.dereferenceable (body req) = false ->
  Story.queryHandler recordingEventsJson req = Throw TypeError.
Proof.
  unfold Resolver.dereferenceable, Story.queryHandler, Resolver.isEventsQuery.
  cbv zeta. intro H.
  destruct (Resolver.nullish (body req)) eqn:Hbody.
  { rewrite (get_of_nullish _ _ Hbody). reflexivity. }
  rewrite (get_of_present _ "query" Hbody). cbn [bind].
  destruct (Resolver.nullish (Resolver.member (body req) "query")) eqn:Hquery.
  { rewrite (get_of_nullish _ _ Hquery). reflexivity. }
  rewrite (get_of_present _ "kind" Hquery). cbn [bind].
  cbn [negb andb] in H.
  destruct (strict_eq_string _ "EventsQuery"); cbn [negb orb] in H; [| discriminate H].
  apply negb_false_iff in H. cbn [bind].
  rewrite (get_of_present _ "properties" Hquery). cbn [bind].
  rewrite (get_of_nullish _ _ H). reflexivity.
Qed.

(** C4, amended: on every body whose [query] member exists and, for an
    [EventsQuery], whose [properties] member exists, the handler returns
    normally with the payload of the first branch whose predicate holds
    of the body, in registration order, and with the empty-results default
    when none does. *)
Theorem query_resolver_total (req : RestRequest) :
  Resolver.dereferenceable (body req) = true ->
  Story.queryHandler recordingEventsJson req =
  Normal (Responded (res [ctx_json
    (Resolver.resolveBranches (Resolver.queryBranches recordingEventsJson)
       Story.emptyResults (body req))])).
Proof.
  intro H. rewrite (query_on_dereferenceable req H).
  unfold Resolver.queryBranches, Resolver.resolveBranches.
  destruct (Resolver.isEventsQueryWithOneProperty (body req)); reflexivity.
Qed.

(** C5: a POST on the query route whose body is
    [{query: {kind: "EventsQuery", properties: [item]}}] is answered with
    the events-query fixture as JSON. *)
Theorem query_events_one_property (req : RestRequest) (item : value) :
  body req = object [("query", object [("kind", str "EventsQuery");
                                       ("properties", array [item])])] ->
  Story.queryHandler recordingEventsJson req =
  Normal (Responded (res [ctx_json recordingEventsJson])).
Proof.
  intro H. unfold Story.queryHandler. rewrite H. reflexivity.
Qed.

(** C6: a POST on the query route whose body is
    [{query: {kind: "EventsQuery", properties: []}}] is answered with
    [{results: []}] as JSON. *)
Theorem query_events_no_property (req : RestRequest) :
  body req = object [("query", object [("kind", str "EventsQuery");
                                       ("properties", array [])])] ->
  Story.queryHandler recordingEventsJson req =
  Normal (Responded (res [ctx_json (object [("results", array [])])])).
Proof.
  intro H. unfold Story.queryHandler. rewrite H. reflexivity.
Qed.

(** The same two answers for bodies that carry further members. *)
Lemma query_events_by_count (req : RestRequest) (query : value) (props : list value) :
  get (body req) "query" = Normal query ->
  get query "kind" = Normal (str "EventsQuery") ->
  get query "properties" = Normal (array props) ->
  Story.queryHandler recordingEventsJson req =
  Normal (Responded (res [ctx_json
    (if Nat.eqb (List.length props) 1
     then recordingEventsJson else Story.emptyResults)])).
Proof.
  intros Hq Hk Hp. unfold Story.queryHandler. cbv zeta.
  rewrite Hq. cbn [bind]. rewrite Hk. cbn [bind strict_eq_string].
  rewrite String.eqb_refl, Hp. cbn [bind get].
  rewrite String.eqb_refl. cbn [bind].
  rewrite length_is_one. destruct (Nat.eqb _ 1); reflexivity.
Qed.

(** Any other kind of query gets the default. *)
Lemma query_other_kind (req : RestRequest) (query kind : value) :
  get (body req) "query" = Normal query ->
  get query "kind" = Normal kind ->
  strict_eq_string kind "EventsQuery" = false ->
  Story.queryHandler recordingEventsJson req =
  Normal (Responded (res [ctx_json Story.emptyResults])).
Proof.
  intros Hq Hk Hne. unfold Story.queryHandler. cbv zeta.
  rewrite Hq. cbn [bind]. rewrite Hk. cbn [bind]. rewrite Hne. reflexivity.
Qed.

End QueryRoute.

(** ** The effect of [BasicTemplate] *)

Lemma Object_is_refl (m : StoreValue) : Object_is m m = true.
Proof. destruct m; simpl; [reflexivity | apply Nat.eqb_refl]. Qed.

(** The first render runs the effect, whatever the metadata value is. *)
Lemma first_render_dispatches (m : StoreValue) :
  snd (BasicTemplate m unmounted) = [loadSnapshots; loadEvents].
Proof. reflexivity. Qed.

(** A later render with the same metadata value only calls
    [loadSnapshots]. *)
Lemma rerender_same_value (m : StoreValue) :
  BasicTemplate m {| effectDeps := Some [m] |}
  = ({| effectDeps := Some [m] |}, [loadSnapshots]).
Proof.
  unfold BasicTemplate, areHookInputsEqual, sameInputs. cbn [effectDeps].
  rewrite Object_is_refl. reflexivity.
Qed.

(** A later render with another metadata value runs the effect again. *)
Lemma rerender_other_value (m m' : StoreValue) :
  Object_is m m' = false ->
  BasicTemplate m {| effectDeps := Some [m'] |}
  = ({| effectDeps := Some [m] |}, [loadSnapshots; loadEvents]).
Proof.
  intro H. unfold BasicTemplate, areHookInputsEqual, sameInputs. cbn [effectDeps].
  rewrite H. reflexivity.
Qed.

Lemma valueOf_not_loaded (s : LoadState) : isLoaded s = false -> valueOf s = nullValue.
Proof. destruct s; simpl; intro H; [reflexivity | reflexivity | discriminate H | reflexivity]. Qed.

Lemma countIssued_app (a : Action) (t u : list Event) :
  countIssued a (t ++ u) = countIssued a t + countIssued a u.
Proof.
  induction t as [| e t IH]; [reflexivity |].
  destruct e as [s | b]; simpl; rewrite IH; [reflexivity | lia].
Qed.

(** Once mounted on an absent metadata value, the component dispatches no
    [loadEvents] for as long as the metadata does not reach loaded. *)
Lemma silent_until_loaded (steps : list Step) :
  forall st : State,
    effectDeps (hooks st) = Some [nullValue] ->
    isLoaded (metaState st) = false ->
    neverLoaded steps = true ->
    countIssued loadEvents (run st steps) = 0.
Proof.
  induction steps as [| s steps IH]; intros st Hdeps Hmeta Hnever; [reflexivity |].
  destruct st as [m [deps]]. cbn [hooks metaState effectDeps] in Hdeps, Hmeta. subst deps.
  simpl in Hnever. apply andb_true_iff in Hnever as [Hs Hrest].
  destruct s as [s' |].
  - cbn [run step hooks]. rewrite countIssued_app. cbn [countIssued].
    apply negb_true_iff in Hs. apply IH; [reflexivity | exact Hs | exact Hrest].
  - cbn [run step hooks metaState]. rewrite (valueOf_not_loaded m Hmeta).
    rewrite rerender_same_value. rewrite countIssued_app.
    cbn [map countIssued Action_eqb]. apply IH; [reflexivity | exact Hmeta | exact Hrest].
Qed.

(** Once the effect has seen the current metadata value, renders alone
    dispatch no [loadEvents]. *)
Lemma silent_on_rerenders (n : nat) (m : LoadState) :
  countIssued loadEvents
    (run {| metaState := m; hooks := {| effectDeps := Some [valueOf m] |} |} (repeat Render n)) = 0.
Proof.
  induction n as [| n IH]; [reflexivity |].
  cbn [repeat run step hooks metaState]. rewrite rerender_same_value.
  rewrite countIssued_app. cbn [map countIssued Action_eqb]. exact IH.
Qed.

(** C1: on the first render, with the metadata still unloaded, the
    component dispatches [loadSnapshots] and then [loadEvents]: the trace
    has a [loadEvents] that no loaded metadata precedes. *)
Theorem mount_issues_loadEvents_unloaded :
  run start [Render] = [Issued loadSnapshots; Issued loadEvents]
  /\ issuedOnlyOnceLoaded (isLoaded (metaState start)) (run start [Render]) = false.
Proof. split; reflexivity. Qed.

(** C2: when the story is mounted, the metadata load starts and resolves
    to loaded, with a render after each change, [loadEvents] is dispatched
    twice: on the first render and on the render that sees the loaded
    value. *)
Theorem loadEvents_issued_twice (v : nat) :
  let steps := [Render; MetaBecomes loading; Render; MetaBecomes (loaded v); Render] in
  run start steps =
    [Issued loadSnapshots; Issued loadEvents;
     Reached loading;
     Issued loadSnapshots;
     Reached (loaded v);
     Issued loadSnapshots; Issued loadEvents]
  /\ countIssued loadEvents (run start steps) = 2.
Proof. split; reflexivity. Qed.

(** C3: when the story is mounted and the metadata load then fails,
    [loadEvents] has been dispatched all the same, on the first render;
    none follows the failure. *)
Theorem loadEvents_issued_despite_failure (err : string) :
  let steps := [Render; MetaBecomes loading; Render; MetaBecomes (failed err); Render] in
  run start steps =
    [Issued loadSnapshots; Issued loadEvents;
     Reached loading;
     Issued loadSnapshots;
     Reached (failed err);
     Issued loadSnapshots]
  /\ countIssued loadEvents (run start steps) = 1.
Proof. split; reflexivity. Qed.

Lemma run_app (steps more : list Step) :
  forall st : State,
    run st (steps ++ more) = (run st steps ++ run (finalState st steps) more)%list.
Proof.
  induction steps as [| s steps IH]; intro st; [reflexivity |].
  cbn [app run finalState]. destruct (step st s) as [st' out]. cbn [fst].
  rewrite IH, app_assoc. reflexivity.
Qed.

Lemma absent_preserved (steps : list Step) :
  forall st : State,
    effectDeps (hooks st) = Some [nullValue] ->
    isLoaded (metaState st) = false ->
    neverLoaded steps = true ->
    effectDeps (hooks (finalState st steps)) = Some [nullValue]
    /\ isLoaded (metaState (finalState st steps)) = false.
Proof.
  induction steps as [| s steps IH]; intros st Hdeps Hmeta Hnever; [split; assumption |].
  simpl in Hnever. apply andb_true_iff in Hnever as [Hs Hrest].
  cbn [finalState]. apply IH; [| | exact Hrest]; destruct s as [s' |].
  - exact Hdeps.
  - cbn [step]. rewrite (valueOf_not_loaded _ Hmeta). reflexivity.
  - apply negb_true_iff in Hs. exact Hs.
  - exact Hmeta.
Qed.

(** In every execution that mounts the story before the metadata is
    loaded, sees it loaded once and renders from then on, [loadEvents] is
    dispatched exactly twice. *)
Lemma loadEvents_twice_in_general (before : list Step) (v n : nat) :
  neverLoaded before = true ->
  countIssued loadEvents
    (run start (Render :: before ++ MetaBecomes (loaded v) :: Render :: repeat Render n)) = 2.
Proof.
  intro Hnever.
  set (mounted := {| metaState := unloaded; hooks := {| effectDeps := Some [nullValue] |} |}).
  change (run start (Render :: ?l))
    with ([Issued loadSnapshots; Issued loadEvents] ++ run mounted l)%list.
  rewrite countIssued_app, run_app, countIssued_app.
  rewrite (silent_until_loaded before mounted eq_refl eq_refl Hnever).
  destruct (absent_preserved before mounted eq_refl eq_refl Hnever) as [Hdeps _].
  destruct (finalState mounted before) as [m [deps]]. cbn [hooks effectDeps] in Hdeps. subst deps.
  cbn [run step hooks metaState valueOf]. rewrite (rerender_other_value (ref v) nullValue eq_refl).
  rewrite !countIssued_app. cbn [map countIssued Action_eqb].
  pose proof (silent_on_rerenders n (loaded v)) as Hquiet. cbn [valueOf] in Hquiet.
  rewrite Hquiet. reflexivity.
Qed.

(** ** The data-loading facade *)

Lemma callsFor_app (k : Kind) (calls more : list Kind) :
  callsFor k (calls ++ more) = callsFor k calls + callsFor k more.
Proof.
  induction calls as [| c calls IH]; [reflexivity |].
  cbn [app callsFor]. rewrite IH. lia.
Qed.

Lemma apply_keeps_one_call (st : Store) (e : StoreEvent) :
  oneCallPerLifecycle st -> oneCallPerLifecycle (apply st e).
Proof.
  intros Inv k'. specialize (Inv k') as Hk'.
  destruct e as [k | k o]; cbn [apply]; unfold startLoad, resolve.
  - destruct (stateOf st k) eqn:Hk; try exact Hk'.
    cbn [interceptions stateOf]. unfold setState. rewrite callsFor_app. cbn [callsFor].
    destruct k, k'; cbn [Kind_eqb];
      try (rewrite Hk in Hk'); rewrite Hk'; try reflexivity;
      destruct (stateOf st _); reflexivity.
  - destruct (stateOf st k) eqn:Hk; try exact Hk'.
    cbn [interceptions stateOf]. unfold setState.
    destruct k, k'; cbn [Kind_eqb];
      try (rewrite Hk in Hk'); rewrite Hk'; try reflexivity;
      destruct o; reflexivity.
Qed.

Lemma reachable_one_call (es : list StoreEvent) :
  forall st : Store, oneCallPerLifecycle st -> oneCallPerLifecycle (fold_left apply es st).
Proof.
  induction es as [| e es IH]; intros st Inv; [exact Inv |].
  cbn [fold_left]. apply IH, apply_keeps_one_call, Inv.
Qed.

Lemma runStore_one_call (es : list StoreEvent) : oneCallPerLifecycle (runStore es).
Proof.
  apply reachable_one_call. intro k. reflexivity.
Qed.

(** No kind ever has more than one recorded call. *)
Lemma at_most_one_call (es : list StoreEvent) (k : Kind) :
  callsFor k (interceptions (runStore es)) <= 1.
Proof.
  rewrite (runStore_one_call es k). destruct (stateOf _ k); lia.
Qed.

(** The recorded calls of a kind are its completed lifecycles plus the
    one in flight. *)
Lemma calls_by_lifecycle (es : list StoreEvent) (k : Kind) :
  callsFor k (interceptions (runStore es))
  = completed k (runStore es)
    + match stateOf (runStore es) k with loading => 1 | _ => 0 end.
Proof.
  rewrite (runStore_one_call es k). unfold completed.
  destruct (stateOf _ k); reflexivity.
Qed.

(** C9: in every reachable store, [startLoad] on a kind that is loading
    changes nothing: no interception call is recorded, no LoadState moves,
    and the kind keeps its single recorded call. *)
Theorem startLoad_while_loading (es : list StoreEvent) (k : Kind) :
  stateOf (runStore es) k = loading ->
  interceptions (startLoad k (runStore es)) = interceptions (runStore es)
  /\ (forall k', stateOf (startLoad k (runStore es)) k' = stateOf (runStore es) k')
  /\ callsFor k (interceptions (startLoad k (runStore es))) = 1.
Proof.
  intro H. unfold startLoad. rewrite H. repeat split.
  rewrite (runStore_one_call es k), H. reflexivity.
Qed.

(** Rendering the story while the snapshots are loading records no
    further snapshots call. *)
Lemma render_while_snapshots_loading (m : StoreValue) (h : Hooks) (st : Store) :
  stateOf st snapshots = loading ->
  callsFor snapshots (interceptions (fold_left dispatch (snd (BasicTemplate m h)) st))
  = callsFor snapshots (interceptions st).
Proof.
  intro H. unfold BasicTemplate. cbn [snd app fold_left].
  assert (Hsnap : dispatch st loadSnapshots = st).
  { unfold dispatch, startLoad. cbn [kindOf]. rewrite H. reflexivity. }
  rewrite Hsnap.
  destruct (areHookInputsEqual _ _); cbn [fold_left]; [reflexivity |].
  unfold dispatch, startLoad. cbn [kindOf].
  destruct (stateOf st events); try reflexivity.
  cbn [interceptions]. rewrite callsFor_app. cbn [callsFor Kind_eqb]. lia.
Qed.

(** Whatever follows, an execution that starts with the first render
    has dispatched [loadEvents] ahead of any loaded metadata. *)
Lemma mount_first_breaks_order (steps : list Step) :
  issuedOnlyOnceLoaded false (run start (Render :: steps)) = false.
Proof. reflexivity. Qed.

(** On the data-loading facade the first render starts the events load:
    its call is recorded and its LoadState leaves unloaded, with the
    metadata still unloaded. *)
Lemma mount_starts_events_load :
  let st := fold_left dispatch (snd (BasicTemplate nullValue unmounted)) emptyStore in
  interceptions st = [snapshots; events]
  /\ stateOf st events = loading
  /\ stateOf st metadata = unloaded.
Proof. repeat split. Qed.

(** ** Instances *)

Lemma snapshots_without_source_witness :
  sourceOf (Samples.getSnapshots []) = None
  /\ Story.snapshotsHandler Samples.snapshotLines (Samples.getSnapshots [])
     = Normal (StatusPayload 200 Story.sourcesPayload).
Proof.
  split; [reflexivity |].
  apply (snapshots_without_source Samples.snapshotLines (Samples.getSnapshots [])).
  reflexivity.
Defined.

Lemma snapshots_blob_source_witness :
  sourceOf (Samples.getSnapshots [("source", "blob")]) = Some "blob"
  /\ Story.snapshotsHandler Samples.snapshotLines (Samples.getSnapshots [("source", "blob")])
     = Normal (Responded {| status := 200;
                            contentType := Some "text/plain";
                            responseBody := Text "snapshot line 1 / snapshot line 2" |}).
Proof.
  split; [reflexivity |].
  apply (snapshots_blob_source Samples.snapshotLines (Samples.getSnapshots [("source", "blob")])).
  reflexivity.
Defined.

Lemma snapshots_other_source_witness :
  sourceOf (Samples.getSnapshots [("source", "realtime")]) = Some "realtime"
  /\ "realtime" <> "blob"
  /\ Story.snapshotsHandler Samples.snapshotLines (Samples.getSnapshots [("source", "realtime")])
     = Story.snapshotsHandler Samples.snapshotLines (Samples.getSnapshots [])
  /\ Story.snapshotsHandler Samples.snapshotLines (Samples.getSnapshots [("source", "realtime")])
     = Normal (StatusPayload 200 Story.sourcesPayload).
Proof.
  split; [reflexivity |]. split; [discriminate |].
  apply (snapshots_other_source Samples.snapshotLines
           (Samples.getSnapshots [("source", "realtime")]) (Samples.getSnapshots []) "realtime").
  - reflexivity.
  - discriminate.
  - reflexivity.
Defined.

Lemma query_events_one_property_witness :
  body (Samples.postQuery (Samples.eventsQuery [Samples.sessionFilter]))
  = object [("query", object [("kind", str "EventsQuery");
                              ("properties", array [Samples.sessionFilter])])]
  /\ Story.queryHandler Samples.eventsFixture (Samples.postQuery (Samples.eventsQuery [Samples.sessionFilter]))
  = Normal (Responded {| status := 200;
                         contentType := Some "application/json";
                         responseBody := Json Samples.eventsFixture |}).
Proof.
  split; [reflexivity |].
  apply (query_events_one_property Samples.eventsFixture
           (Samples.postQuery (Samples.eventsQuery [Samples.sessionFilter])) Samples.sessionFilter).
  reflexivity.
Defined.

Lemma query_events_no_property_witness :
  body (Samples.postQuery (Samples.eventsQuery []))
  = object [("query", object [("kind", str "EventsQuery"); ("properties", array [])])]
  /\ Story.queryHandler Samples.eventsFixture (Samples.postQuery (Samples.eventsQuery []))
  = Normal (Responded {| status := 200;
                         contentType := Some "application/json";
                         responseBody := Json (object [("results", array [])]) |}).
Proof.
  split; [reflexivity |].
  apply (query_events_no_property Samples.eventsFixture (Samples.postQuery (Samples.eventsQuery []))).
  reflexivity.
Defined.

Lemma query_resolver_total_witness :
  Resolver.dereferenceable (object [("query", object [("kind", str "TrendsQuery")])]) = true
  /\ Story.queryHandler Samples.eventsFixture
       (Samples.postQuery (object [("query", object [("kind", str "TrendsQuery")])]))
     = Normal (Responded (res [ctx_json Story.emptyResults])).
Proof.
  split; [reflexivity |].
  apply (query_resolver_total Samples.eventsFixture
           (Samples.postQuery (object [("query", object [("kind", str "TrendsQuery")])]))).
  reflexivity.
Defined.

(** A body without a [query] member makes the handler throw. *)
Lemma query_throws_without_query :
  Story.queryHandler Samples.eventsFixture (Samples.postQuery (object [])) = Throw TypeError.
Proof. reflexivity. Qed.

(** So does an [EventsQuery] without [properties]. *)
Lemma query_throws_without_properties :
  Story.queryHandler Samples.eventsFixture
    (Samples.postQuery (object [("query", object [("kind", str "EventsQuery")])]))
  = Throw TypeError.
Proof. reflexivity. Qed.

Lemma startLoad_while_loading_witness :
  stateOf (runStore [StartLoad snapshots]) snapshots = loading
  /\ interceptions (startLoad snapshots (runStore [StartLoad snapshots])) = [snapshots]
  /\ callsFor snapshots (interceptions (startLoad snapshots (runStore [StartLoad snapshots]))) = 1.
Proof.
  split; [reflexivity |].
  destruct (startLoad_while_loading [StartLoad snapshots] snapshots eq_refl) as [Hcalls [_ Hone]].
  split; [exact Hcalls | exact Hone].
Defined.

(** ** Further behaviour of the query route *)

Section QueryRouteEdges.

Variable recordingEventsJson : value.

(** The handler throws exactly on the bodies with a missing member on its
    path: a nullish body, a nullish [body.query], or an [EventsQuery]
    whose [properties] is nullish. *)
Theorem query_throws_exactly (req : RestRequest) :
  Story.queryHandler recordingEventsJson req = Throw TypeError
  <-> (Resolver.nullish (body req) = true
       \/ Resolver.nullish (Resolver.member (body req) "query") = true
       \/ (Resolver.isEventsQuery (body req) = true
           /\ Resolver.nullish
                (Resolver.member (Resolver.member (body req) "query") "properties") = true)).
Proof.
  split.
  - intro Hthrow.
    destruct (Resolver.dereferenceable (body req)) eqn:D.
    { rewrite (query_on_dereferenceable recordingEventsJson req D) in Hthrow.
      discriminate Hthrow. }
    unfold Resolver.dereferenceable in D.
    destruct (Resolver.nullish (body req)); [left; reflexivity |].
    destruct (Resolver.nullish (Resolver.member (body req) "query")); [right; left; reflexivity |].
    right; right. cbn [negb andb] in D.
    destruct (Resolver.isEventsQuery (body req)); cbn [negb orb] in D; [| discriminate D].
    split; [reflexivity | apply negb_false_iff, D].
  - intro H. apply query_on_missing_member. unfold Resolver.dereferenceable.
    destruct H as [H | [H | [Hkind H]]].
    + rewrite H. reflexivity.
    + rewrite H. apply andb_false_iff. left. apply andb_false_r.
    + rewrite Hkind, H. apply andb_false_r.
Qed.

(** Whenever the handler returns, the answer is a JSON response of status
    200 carrying the events fixture or the empty results: never a
    [[status, payload]] pair, never text. *)
Theorem query_answers_json (req : RestRequest) (r : HandlerResult) :
  Story.queryHandler recordingEventsJson req = Normal r ->
  exists payload,
    r = Responded {| status := 200;
                     contentType := Some "application/json";
                     responseBody := Json payload |}
    /\ (payload = recordingEventsJson \/ payload = Story.emptyResults).
Proof.
  intro H. destruct (Resolver.dereferenceable (body req)) eqn:D.
  - rewrite (query_on_dereferenceable recordingEventsJson req D) in H.
    injection H as <-.
    destruct (Resolver.isEventsQueryWithOneProperty (body req));
      eexists; (split; [reflexivity |]); [left | right]; reflexivity.
  - rewrite (query_on_missing_member recordingEventsJson req D) in H. discriminate H.
Qed.


End QueryRouteEdges.

(** ** Further behaviour of the snapshots route *)

Lemma searchParams_get_first (name v : string) (before after : URLSearchParams) :
  (forall n w, In (n, w) before -> n <> name) ->
  searchParams_get (before ++ (name, v) :: after)%list name = Some v.
Proof.
  induction before as [| [n w] before IH]; intro Hnone.
  - cbn [app searchParams_get]. rewrite String.eqb_refl. reflexivity.
  - cbn [app searchParams_get].
    destruct (String.eqb_spec n name) as [Heq | Hne].
    + exfalso. apply (Hnone n w); [left; reflexivity | exact Heq].
    + apply IH. intros n' w' Hin. apply (Hnone n' w'). right. exact Hin.
Qed.

(** Of several [source] parameters the first decides, and parameters of
    other names do not matter: the answer is that of a request carrying
    that one parameter alone. *)
Theorem snapshots_first_source_decides
    (snapshotsAsJSONLines : unit -> string) (req alone : RestRequest)
    (v : string) (before after : URLSearchParams) :
  (forall n w, In (n, w) before -> n <> "source") ->
  searchParams (url req) = (before ++ ("source", v) :: after)%list ->
  searchParams (url alone) = [("source", v)] ->
  Story.snapshotsHandler snapshotsAsJSONLines req
  = Story.snapshotsHandler snapshotsAsJSONLines alone.
Proof.
  intros Hnone Hreq Halone. unfold Story.snapshotsHandler, sourceOf.
  rewrite Hreq, Halone, (searchParams_get_first "source" v before after Hnone).
  cbn [searchParams_get]. rewrite String.eqb_refl. reflexivity.
Qed.

(** Every source that the sources list names is served: a request for it
    gets the snapshot text. *)
Theorem advertised_sources_are_served
    (snapshotsAsJSONLines : unit -> string) (req : RestRequest) (s : string) :
  In s (Sources.advertisedSources Story.sourcesPayload) ->
  sourceOf req = Some s ->
  Story.snapshotsHandler snapshotsAsJSONLines req =
  Normal (Responded {| status := 200;
                       contentType := Some "text/plain";
                       responseBody := Text (snapshotsAsJSONLines tt) |}).
Proof.
  intros Hin Hs. rewrite snapshots_by_source, Hs.
  cbn in Hin. destruct Hin as [<- | []]. reflexivity.
Qed.

(** ** Counting what the component dispatches *)

Lemma dispatched_app (a : Action) (l l' : list Action) :
  dispatched a (l ++ l') = dispatched a l + dispatched a l'.
Proof.
  induction l as [| b l IH]; [reflexivity |].
  cbn [app dispatched]. rewrite IH. lia.
Qed.

Lemma render_actions (m : StoreValue) (h : Hooks) :
  BasicTemplate m h =
  ({| effectDeps := Some [m] |},
   loadSnapshots :: if areHookInputsEqual [m] (effectDeps h) then [] else [loadEvents]).
Proof. reflexivity. Qed.

(** [loadSnapshots] is dispatched once for every render, whatever the
    metadata values and the hook state are. *)
Theorem loadSnapshots_every_render (values : list StoreValue) :
  forall h : Hooks, dispatched loadSnapshots (renders h values) = List.length values.
Proof.
  induction values as [| m values IH]; intro h; [reflexivity |].
  cbn [renders]. rewrite render_actions, dispatched_app, IH.
  destruct (areHookInputsEqual _ _); reflexivity.
Qed.

Lemma loadEvents_after_mount (values : list StoreValue) :
  forall prev : StoreValue,
    dispatched loadEvents (renders {| effectDeps := Some [prev] |} values)
    = changes prev values.
Proof.
  induction values as [| m values IH]; intro prev; [reflexivity |].
  cbn [renders]. rewrite render_actions, dispatched_app, IH.
  cbn [effectDeps areHookInputsEqual sameInputs changes].
  destruct (Object_is m prev); reflexivity.
Qed.

(** From the first render on, [loadEvents] is dispatched once at mount and
    once more for every render whose metadata value is not the one of the
    render before. *)
Theorem loadEvents_per_change (m : StoreValue) (values : list StoreValue) :
  dispatched loadEvents (renders unmounted (m :: values)) = 1 + changes m values.
Proof.
  cbn [renders]. rewrite render_actions, dispatched_app, loadEvents_after_mount.
  reflexivity.
Qed.

Lemma changes_repeat (m : StoreValue) (n : nat) : changes m (repeat m n) = 0.
Proof.
  induction n as [| n IH]; [reflexivity |].
  cbn [repeat changes]. rewrite Object_is_refl, IH. reflexivity.
Qed.

(** After a render with some metadata value, any number of renders with
    that same value dispatches no [loadEvents], whatever the hook state
    was before. *)
Theorem no_loadEvents_on_same_value (h : Hooks) (m : StoreValue) (n : nat) :
  dispatched loadEvents (renders (fst (BasicTemplate m h)) (repeat m n)) = 0.
Proof.
  rewrite render_actions. cbn [fst].
  rewrite loadEvents_after_mount. apply changes_repeat.
Qed.

(** In what the component dispatches, every [loadEvents] comes directly
    after the [loadSnapshots] of its own render. *)
Theorem loadEvents_follows_loadSnapshots (values : list StoreValue) :
  forall (h : Hooks) (prev : option Action),
    eventsFollowSnapshots prev (renders h values) = true.
Proof.
  induction values as [| m values IH]; intros h prev; [reflexivity |].
  cbn [renders]. rewrite render_actions.
  destruct (areHookInputsEqual _ _); cbn [app eventsFollowSnapshots]; apply IH.
Qed.

(** ** Further instances *)

Lemma query_events_by_count_witness :
  Story.queryHandler Samples.eventsFixture
    (Samples.postQuery
       (object [("query", object [("kind", str "EventsQuery");
                                  ("select", array [str "*"]);
                                  ("properties", array [Samples.sessionFilter; Samples.sessionFilter])]);
                ("refresh", boolean true)]))
  = Normal (Responded (res [ctx_json Story.emptyResults])).
Proof.
  apply (query_events_by_count Samples.eventsFixture
           (Samples.postQuery
              (object [("query", object [("kind", str "EventsQuery");
                                         ("select", array [str "*"]);
                                         ("properties", array [Samples.sessionFilter; Samples.sessionFilter])]);
                       ("refresh", boolean true)]))
           (object [("kind", str "EventsQuery");
                    ("select", array [str "*"]);
                    ("properties", array [Samples.sessionFilter; Samples.sessionFilter])])
           [Samples.sessionFilter; Samples.sessionFilter]); reflexivity.
Defined.

Lemma query_other_kind_witness :
  Story.queryHandler Samples.eventsFixture
    (Samples.postQuery (object [("query", object [("kind", str "HogQLQuery")])]))
  = Normal (Responded (res [ctx_json Story.emptyResults])).
Proof.
  apply (query_other_kind Samples.eventsFixture
           (Samples.postQuery (object [("query", object [("kind", str "HogQLQuery")])]))
           (object [("kind", str "HogQLQuery")])
           (str "HogQLQuery")); reflexivity.
Defined.

Lemma query_answers_json_witness :
  exists payload,
    Responded (res [ctx_json Samples.eventsFixture])
    = Responded {| status := 200;
                   contentType := Some "application/json";
                   responseBody := Json payload |}
    /\ (payload = Samples.eventsFixture \/ payload = Story.emptyResults).
Proof.
  apply (query_answers_json Samples.eventsFixture
           (Samples.postQuery (Samples.eventsQuery [Samples.sessionFilter]))).
  reflexivity.
Defined.


Lemma snapshots_first_source_decides_witness :
  Story.snapshotsHandler Samples.snapshotLines
    (Samples.getSnapshots [("limit", "10"); ("source", "realtime"); ("source", "blob")])
  = Story.snapshotsHandler Samples.snapshotLines (Samples.getSnapshots [("source", "realtime")]).
Proof.
  apply (snapshots_first_source_decides Samples.snapshotLines
           (Samples.getSnapshots [("limit", "10"); ("source", "realtime"); ("source", "blob")])
           (Samples.getSnapshots [("source", "realtime")])
           "realtime" [("limit", "10")] [("source", "blob")]).
  - intros n w [Heq | []]. injection Heq as <- _. discriminate.
  - reflexivity.
  - reflexivity.
Defined.

Lemma advertised_sources_are_served_witness :
  In "blob" (Sources.advertisedSources Story.sourcesPayload)
  /\ Story.snapshotsHandler Samples.snapshotLines (Samples.getSnapshots [("source", "blob")])
     = Normal (Responded {| status := 200;
                            contentType := Some "text/plain";
                            responseBody := Text "snapshot line 1 / snapshot line 2" |}).
Proof.
  split; [left; reflexivity |].
  apply (advertised_sources_are_served Samples.snapshotLines
           (Samples.getSnapshots [("source", "blob")]) "blob").
  - left; reflexivity.
  - reflexivity.
Defined.
